(** * Order evaluation of the SDK: [sdk/src/math/orders.ts]

    A shallow embedding of the order classifiers, the limit-price resolver
    and the AMM fill-eligibility computation, followed by the properties
    the specification states about them.

    Conventions.
    - A [BN] (bn.js arbitrary-precision integer) is a [Z].  [BN.mod] is the
      truncated remainder ([Z.rem]) and asserts a non-zero divisor: the
      assertion failure is the [Throw] outcome of the [Result] monad.
    - A JavaScript [number] holding a slot, a timestamp, a market index or
      an oracle offset is an integer, also a [Z]; [new BN(n)] is the identity.
      bn.js accepts a number below [2^53] in absolute value and asserts
      beyond: an oracle offset, a 32-bit field, is always accepted, and a
      property that promises a result at a caller's timestamp states the
      bound.
    - [T | undefined] is [option T].
    - The functions imported from [./auction] and [./amm] are parameters of
      the section [Orders]. *)

From Stdlib Require Import ZArith String List Bool Lia.
From ExtLib Require Import Structures.Monad.
Import ListNotations.
Import MonadNotation.

Local Open Scope Z_scope.
Local Open Scope monad_scope.

(** ** Outcomes of a call: a value, or a thrown assertion *)

Inductive Result (A : Type) : Type :=
| Return (value : A)
| Throw (message : string).

Arguments Return {A} value.
Arguments Throw {A} message.

#[export] Instance Monad_Result : Monad Result :=
  {| ret := fun _ value => Return value;
     bind := fun _ _ call rest =>
       match call with
       | Return value => rest value
       | Throw message => Throw message
       end |}.

(** ** bn.js *)

Module BN.

(** [BN.prototype.mod]: [divmod(num, 'mod', false).mod], which starts with
    [assert(!num.isZero())]; the remainder takes the sign of the dividend. *)
Definition mod_ (self num : Z) : Result Z :=
  if num =? 0 then Throw "Assertion failed" else Return (Z.rem self num).

(** [BN.min]: [if (left.cmp(right) < 0) return left; return right;] *)
Definition min (left right : Z) : Z :=
  if left <? right then left else right.

End BN.

(** Modelled from the spec: [ZERO] and [TWO] of [constants/numericConstants]
    (not among the sources), the [BN]s [0] and [2] of the flip rule
    [remainingToFill > 2 * |position|]. *)
Definition ZERO : Z := 0.
Definition TWO : Z := 2.

(** ** Variants ([types.ts])

    An Anchor enum value is an object with one own property, the name of its
    variant: [{ init: {} }], [{ long: {} }]. *)

(** Modelled from the spec: the variants of [types.ts] (the file is not part
    of the sources at hand), with the names [orders.ts] tests for. *)
Inductive OrderStatus := init | open | filled | canceled.

(** Modelled from the spec: the five order types of [types.ts]. *)
Inductive OrderType := market | limit | triggerMarket | triggerLimit | oracle.

(** Modelled from the spec: the two directions of [types.ts]. *)
Inductive PositionDirection := long | short.

(** Modelled from the spec: the trigger sub-state of [types.ts]. *)
Inductive OrderTriggerCondition := untriggered | triggeredAbove | triggeredBelow.

(** The name of the own property of a variant object. *)
Class Variant (T : Type) := variantName : T -> string.

#[export] Instance Variant_OrderStatus : Variant OrderStatus :=
  fun object =>
    match object with
    | init => "init" | open => "open" | filled => "filled" | canceled => "canceled"
    end%string.

#[export] Instance Variant_OrderType : Variant OrderType :=
  fun object =>
    match object with
    | market => "market" | limit => "limit" | triggerMarket => "triggerMarket"
    | triggerLimit => "triggerLimit" | oracle => "oracle"
    end%string.

#[export] Instance Variant_PositionDirection : Variant PositionDirection :=
  fun object => match object with long => "long" | short => "short" end%string.

#[export] Instance Variant_OrderTriggerCondition : Variant OrderTriggerCondition :=
  fun object =>
    match object with
    | untriggered => "untriggered" | triggeredAbove => "triggeredAbove"
    | triggeredBelow => "triggeredBelow"
    end%string.

(** Modelled from the spec: [isVariant(object, type)] of [types.ts], whether
    the value is the variant of that name (for an Anchor enum object,
    whether it has the property). *)
Definition isVariant {T : Type} `{Variant T} (object : T) (type : string) : bool :=
  String.eqb (variantName object) type.

(** Modelled from the spec: [isOneOfVariant(object, types)] of [types.ts],
    whether the value is one of the variants named, the names tried from
    left to right. *)
Definition isOneOfVariant {T : Type} `{Variant T} (object : T) (types : list string) : bool :=
  fold_left (fun result type => result || isVariant object type) types false.

(** ** Records

    Modelled from the spec: the record types of [types.ts], [oracles/types]
    and [user] are not among the sources; each has the fields the data
    model of the specification lists, under the names [orders.ts] reads. *)

Module Order.
Record t := mk {
  status : OrderStatus;
  orderType : OrderType;
  direction : PositionDirection;
  marketIndex : Z;
  baseAssetAmount : Z;
  baseAssetAmountFilled : Z;
  price : Z;
  oraclePriceOffset : Z;
  auctionStartPrice : Z;
  auctionEndPrice : Z;
  triggerCondition : OrderTriggerCondition;
  maxTs : Z;
  postOnly : bool
}.
End Order.

Module PerpPosition.
Record t := mk {
  marketIndex : Z;
  baseAssetAmount : Z
}.
End PerpPosition.

Module OraclePriceData.
Record t := mk { price : Z }.
End OraclePriceData.

(** The AMM account: the three order-size fields [orders.ts] reads, and the
    reserves and curve parameters, which only the curve mathematics of
    [./amm] looks into. *)
Module AMM.
Record t (Curve : Type) := mk {
  curve : Curve;
  minOrderSize : Z;
  orderTickSize : Z;
  orderStepSize : Z
}.
Arguments mk {Curve}.
Arguments curve {Curve}.
Arguments minOrderSize {Curve}.
Arguments orderTickSize {Curve}.
Arguments orderStepSize {Curve}.
End AMM.

Module PerpMarketAccount.
Record t (Curve : Type) := mk { amm : AMM.t Curve }.
Arguments mk {Curve}.
Arguments amm {Curve}.
End PerpMarketAccount.

(** The two methods of [User] that [orders.ts] calls.  [getPerpPosition]
    answers [undefined] when the user has no position in the market. *)
Module User.
Record t := mk {
  getPerpPosition : Z -> option PerpPosition.t;
  getEmptyPosition : Z -> PerpPosition.t
}.
End User.

(** ** Risk classifiers *)

(** [user.getPerpPosition(order.marketIndex) ||
     user.getEmptyPosition(order.marketIndex)] *)
Definition positionOf (user : User.t) (order : Order.t) : PerpPosition.t :=
  match User.getPerpPosition user (Order.marketIndex order) with
  | Some position => position
  | None => User.getEmptyPosition user (Order.marketIndex order)
  end.

Definition isOrderRiskIncreasing (user : User.t) (order : Order.t) : bool :=
  if isVariant (Order.status order) "init" then false
  else
    let position := positionOf user order in
    (* if no position exists, it's risk increasing *)
    if PerpPosition.baseAssetAmount position =? ZERO then true
    (* if position is long and order is long *)
    else if (PerpPosition.baseAssetAmount position >? ZERO)
            && isVariant (Order.direction order) "long" then true
    (* if position is short and order is short *)
    else if (PerpPosition.baseAssetAmount position <? ZERO)
            && isVariant (Order.direction order) "short" then true
    else
      let baseAssetAmountToFill :=
        Order.baseAssetAmount order - Order.baseAssetAmountFilled order in
      (* if order will flip position *)
      if baseAssetAmountToFill >? Z.abs (PerpPosition.baseAssetAmount position) * TWO
      then true
      else false.

Definition isOrderRiskIncreasingInSameDirection (user : User.t) (order : Order.t) : bool :=
  if isVariant (Order.status order) "init" then false
  else
    let position := positionOf user order in
    if PerpPosition.baseAssetAmount position =? ZERO then true
    else if (PerpPosition.baseAssetAmount position >? ZERO)
            && isVariant (Order.direction order) "long" then true
    else if (PerpPosition.baseAssetAmount position <? ZERO)
            && isVariant (Order.direction order) "short" then true
    else false.

Definition isOrderReduceOnly (user : User.t) (order : Order.t) : bool :=
  if isVariant (Order.status order) "init" then false
  else
    let position := positionOf user order in
    if (PerpPosition.baseAssetAmount position >=? ZERO)
       && isVariant (Order.direction order) "long" then false
    else if (PerpPosition.baseAssetAmount position <=? ZERO)
            && isVariant (Order.direction order) "short" then false
    else true.

(** ** Quantities and order kinds *)

Definition standardizeBaseAssetAmount (baseAssetAmount stepSize : Z) : Result Z :=
  remainder <- BN.mod_ baseAssetAmount stepSize ;;
  ret (baseAssetAmount - remainder).

Definition isSameDirection (firstDirection secondDirection : PositionDirection) : bool :=
  (isVariant firstDirection "long" && isVariant secondDirection "long")
  || (isVariant firstDirection "short" && isVariant secondDirection "short").

Definition isMarketOrder (order : Order.t) : bool :=
  isOneOfVariant (Order.orderType order) ["market"; "triggerMarket"; "oracle"]%string.

Definition isLimitOrder (order : Order.t) : bool :=
  isOneOfVariant (Order.orderType order) ["limit"; "triggerLimit"]%string.

Definition mustBeTriggered (order : Order.t) : bool :=
  isOneOfVariant (Order.orderType order) ["triggerMarket"; "triggerLimit"]%string.

Definition isTriggered (order : Order.t) : bool :=
  isOneOfVariant (Order.triggerCondition order) ["triggeredAbove"; "triggeredBelow"]%string.

Definition isOrderExpired (order : Order.t) (ts : Z) : bool :=
  if mustBeTriggered order
     || negb (isVariant (Order.status order) "open")
     || (Order.maxTs order =? ZERO)
  then false
  else ts >? Order.maxTs order.

(** ** Sample inputs

    Concrete orders, positions, markets and collaborators, on which the
    properties below are run. *)

Module Sample.

(** A trader who is long [10] in market [0] and has no other position. *)
Definition longTen : User.t :=
  {| User.getPerpPosition := fun marketIndex =>
       if marketIndex =? 0
       then Some {| PerpPosition.marketIndex := 0; PerpPosition.baseAssetAmount := 10 |}
       else None;
     User.getEmptyPosition := fun marketIndex =>
       {| PerpPosition.marketIndex := marketIndex; PerpPosition.baseAssetAmount := 0 |} |}.

(** A trader without any position. *)
Definition flat : User.t :=
  {| User.getPerpPosition := fun _ => None;
     User.getEmptyPosition := fun marketIndex =>
       {| PerpPosition.marketIndex := marketIndex; PerpPosition.baseAssetAmount := 0 |} |}.

(** An order in market [0] with neither oracle offset nor auction prices. *)
Definition order (status : OrderStatus) (orderType : OrderType)
  (direction : PositionDirection) (baseAssetAmount baseAssetAmountFilled price maxTs : Z)
  : Order.t :=
  {| Order.status := status;
     Order.orderType := orderType;
     Order.direction := direction;
     Order.marketIndex := 0;
     Order.baseAssetAmount := baseAssetAmount;
     Order.baseAssetAmountFilled := baseAssetAmountFilled;
     Order.price := price;
     Order.oraclePriceOffset := 0;
     Order.auctionStartPrice := 0;
     Order.auctionEndPrice := 0;
     Order.triggerCondition := untriggered;
     Order.maxTs := maxTs;
     Order.postOnly := false |}.

(** An open short order with [25] of its [30] left to fill. *)
Definition flipOrder : Order.t := order open limit short 30 5 0 0.

(** A slot of the order array that holds no order. *)
Definition emptyOrder : Order.t := order init market long 0 0 0 0.

(** The market order of the end-to-end scenario of the specification. *)
Definition marketOrder : Order.t := order open market long 1000 0 0 0.

(** An open long limit order at price [100] that expires after timestamp [1]. *)
Definition limitOrder : Order.t := order open limit long 1000 0 100 1.

(** A stop order whose trigger has not fired. *)
Definition stopOrder : Order.t := order open triggerLimit long 1000 0 100 0.

Definition amm (orderStepSize : Z) : AMM.t unit :=
  {| AMM.curve := tt;
     AMM.minOrderSize := 100;
     AMM.orderTickSize := 1;
     AMM.orderStepSize := orderStepSize |}.

Definition market (orderStepSize : Z) : PerpMarketAccount.t unit :=
  {| PerpMarketAccount.amm := amm orderStepSize |}.

Definition oraclePriceData : OraclePriceData.t := {| OraclePriceData.price := 100 |}.

(** Collaborators: every auction is over, the AMM is left as it is, the
    curve can trade [1250] towards the limit price in the direction given
    here, and can fill [800] at most. *)
Definition isAuctionComplete (order : Order.t) (slot : Z) : bool := true.

Definition getAuctionPrice (order : Order.t) (slot oraclePrice : Z) : Z := oraclePrice.

Definition calculateUpdatedAMM (amm : AMM.t unit) (oraclePriceData : OraclePriceData.t)
  : AMM.t unit := amm.

Definition calculateMaxBaseAssetAmountToTrade (resultingDirection : PositionDirection)
  (amm : AMM.t unit) (limitPrice : Z) (direction : PositionDirection)
  (oraclePriceData : OraclePriceData.t) : Z * PositionDirection :=
  (1250, resultingDirection).

Definition calculateMaxBaseAssetAmountFillable (amm : AMM.t unit)
  (direction : PositionDirection) : Z := 800.

End Sample.

(** Further sample inputs. *)

Module Scenario.

(** A trader who is short [10] in market [0] and has no other position. *)
Definition shortTen : User.t :=
  {| User.getPerpPosition := fun marketIndex =>
       if marketIndex =? 0
       then Some {| PerpPosition.marketIndex := 0; PerpPosition.baseAssetAmount := -10 |}
       else None;
     User.getEmptyPosition := fun marketIndex =>
       {| PerpPosition.marketIndex := marketIndex; PerpPosition.baseAssetAmount := 0 |} |}.

(** The mirror image of [Sample.flipOrder]: long, with [25] of [30] left. *)
Definition mirrorOrder : Order.t := Sample.order open limit long 30 5 0 0.

(** [Sample.flipOrder] with [35] left to fill. *)
Definition largerFlipOrder : Order.t := Sample.order open limit short 40 5 0 0.

(** Long limit orders at price [100]: one filled in full, one of [5000], and
    one of [50], below the sample market's minimum order size. *)
Definition filledOrder : Order.t := Sample.order open limit long 1000 1000 100 0.
Definition bigOrder : Order.t := Sample.order open limit long 5000 0 100 0.
Definition smallOrder : Order.t := Sample.order open limit long 50 0 100 0.

(** A market whose minimum order size of [1000] is above the [800] the
    sample curve can fill. *)
Definition coarseMarket : PerpMarketAccount.t unit :=
  {| PerpMarketAccount.amm :=
       {| AMM.curve := tt;
          AMM.minOrderSize := 1000;
          AMM.orderTickSize := 1;
          AMM.orderStepSize := 100 |} |}.

End Scenario.

(** ** Prices and fills, over the collaborators of [./auction] and [./amm] *)

Section Orders.

Context {Curve : Type}.

(** [./auction] *)
Variable isAuctionComplete : Order.t -> Z -> bool.
Variable getAuctionPrice : Order.t -> Z -> Z -> Z.

(** [./amm] *)
Variable calculateUpdatedAMM : AMM.t Curve -> OraclePriceData.t -> AMM.t Curve.
Variable calculateMaxBaseAssetAmountToTrade :
  AMM.t Curve -> Z -> PositionDirection -> OraclePriceData.t -> Z * PositionDirection.
Variable calculateMaxBaseAssetAmountFillable : AMM.t Curve -> PositionDirection -> Z.

Definition hasAuctionPrice (order : Order.t) (slot : Z) : bool :=
  negb (isAuctionComplete order slot)
  && (negb (Order.auctionStartPrice order =? ZERO)
      || negb (Order.auctionEndPrice order =? ZERO)).

Definition hasLimitPrice (order : Order.t) (slot : Z) : bool :=
  (Order.price order >? ZERO)
  || negb (Order.oraclePriceOffset order =? 0)
  || negb (isAuctionComplete order slot).

Definition getLimitPrice (order : Order.t) (oraclePriceData : OraclePriceData.t)
  (slot : Z) (fallbackPrice : option Z) : option Z :=
  if hasAuctionPrice order slot then
    Some (getAuctionPrice order slot (OraclePriceData.price oraclePriceData))
  else if negb (Order.oraclePriceOffset order =? 0) then
    Some (OraclePriceData.price oraclePriceData + Order.oraclePriceOffset order)
  else if Order.price order =? ZERO then
    fallbackPrice
  else
    Some (Order.price order).

Definition calculateBaseAssetAmountToFillUpToLimitPrice (order : Order.t)
  (amm : AMM.t Curve) (limitPrice : Z) (oraclePriceData : OraclePriceData.t) : Result Z :=
  let adjustedLimitPrice :=
    if isVariant (Order.direction order) "long"
    then limitPrice - AMM.orderTickSize amm
    else limitPrice + AMM.orderTickSize amm in
  let '(maxAmountToTrade, direction) :=
    calculateMaxBaseAssetAmountToTrade amm adjustedLimitPrice
      (Order.direction order) oraclePriceData in
  baseAssetAmount <- standardizeBaseAssetAmount maxAmountToTrade (AMM.orderStepSize amm) ;;
  (* Check that directions are the same *)
  let sameDirection := isSameDirection direction (Order.direction order) in
  if negb sameDirection then ret ZERO
  else
    let baseAssetAmountUnfilled :=
      Order.baseAssetAmount order - Order.baseAssetAmountFilled order in
    ret (if baseAssetAmount >? baseAssetAmountUnfilled
         then baseAssetAmountUnfilled
         else baseAssetAmount).

Definition calculateBaseAssetAmountForAmmToFulfill (order : Order.t)
  (market : PerpMarketAccount.t Curve) (oraclePriceData : OraclePriceData.t)
  (slot : Z) : Result Z :=
  if mustBeTriggered order && negb (isTriggered order) then ret ZERO
  else
    let limitPrice := getLimitPrice order oraclePriceData slot None in
    let updatedAMM := calculateUpdatedAMM (PerpMarketAccount.amm market) oraclePriceData in
    baseAssetAmount <-
      match limitPrice with
      | Some limitPrice =>
          calculateBaseAssetAmountToFillUpToLimitPrice order updatedAMM limitPrice
            oraclePriceData
      | None => ret (Order.baseAssetAmount order - Order.baseAssetAmountFilled order)
      end ;;
    let maxBaseAssetAmount :=
      calculateMaxBaseAssetAmountFillable updatedAMM (Order.direction order) in
    ret (BN.min maxBaseAssetAmount baseAssetAmount).

(** [(isAuctionComplete(..) && calculate..(..).gte(minOrderSize)) || isOrderExpired(..)]:
    the quantity is computed only when the auction is complete. *)
Definition isFillableByVAMM (order : Order.t) (market : PerpMarketAccount.t Curve)
  (oraclePriceData : OraclePriceData.t) (slot ts : Z) : Result bool :=
  if isAuctionComplete order slot then
    baseAssetAmount <-
      calculateBaseAssetAmountForAmmToFulfill order market oraclePriceData slot ;;
    ret ((baseAssetAmount >=? AMM.minOrderSize (PerpMarketAccount.amm market))
         || isOrderExpired order ts)
  else ret (isOrderExpired order ts).

Definition isRestingLimitOrder (order : Order.t) (slot : Z) : bool :=
  isLimitOrder order && (Order.postOnly order || isAuctionComplete order slot).

Definition isTakingOrder (order : Order.t) (slot : Z) : bool :=
  isMarketOrder order || negb (isRestingLimitOrder order slot).


(** ** Reading the tests on variants and on [BN]s *)

Lemma isVariant_init (object : OrderStatus) :
  isVariant object "init" = true <-> object = init.
Proof. destruct object; split; intros E; (reflexivity || discriminate E). Qed.

Lemma isVariant_open (object : OrderStatus) :
  isVariant object "open" = true <-> object = open.
Proof. destruct object; split; intros E; (reflexivity || discriminate E). Qed.

Lemma isVariant_long (object : PositionDirection) :
  isVariant object "long" = true <-> object = long.
Proof. destruct object; split; intros E; (reflexivity || discriminate E). Qed.

Lemma isVariant_short (object : PositionDirection) :
  isVariant object "short" = true <-> object = short.
Proof. destruct object; split; intros E; (reflexivity || discriminate E). Qed.

Lemma mustBeTriggered_iff (order : Order.t) :
  mustBeTriggered order = true
  <-> Order.orderType order = triggerMarket \/ Order.orderType order = triggerLimit.
Proof.
  unfold mustBeTriggered.
  destruct (Order.orderType order); split; intros E;
    try discriminate E; try (destruct E as [E | E]; discriminate E);
    try reflexivity; auto.
Qed.

Lemma isTriggered_iff (order : Order.t) :
  isTriggered order = true
  <-> Order.triggerCondition order = triggeredAbove
      \/ Order.triggerCondition order = triggeredBelow.
Proof.
  unfold isTriggered.
  destruct (Order.triggerCondition order); split; intros E;
    try discriminate E; try (destruct E as [E | E]; discriminate E);
    try reflexivity; auto.
Qed.

Lemma isSameDirection_iff (firstDirection secondDirection : PositionDirection) :
  isSameDirection firstDirection secondDirection = true
  <-> firstDirection = secondDirection.
Proof.
  destruct firstDirection, secondDirection; split; intros E;
    (reflexivity || discriminate E).
Qed.

(** The market-order and limit-order types split the five order types. *)
Lemma isMarketOrder_isLimitOrder (order : Order.t) :
  isMarketOrder order = negb (isLimitOrder order).
Proof.
  unfold isMarketOrder, isLimitOrder.
  destruct (Order.orderType order); reflexivity.
Qed.

Lemma BN_min_spec (left right : Z) : BN.min left right = Z.min left right.
Proof. unfold BN.min. destruct (Z.ltb_spec left right); lia. Qed.

(** With a step size of zero [BN.mod] fails its assertion. *)
Lemma standardizeBaseAssetAmount_zero_step (baseAssetAmount : Z) :
  standardizeBaseAssetAmount baseAssetAmount 0 = Throw "Assertion failed".
Proof. reflexivity. Qed.

Lemma standardizeBaseAssetAmount_returns (baseAssetAmount stepSize : Z) :
  stepSize <> 0 ->
  standardizeBaseAssetAmount baseAssetAmount stepSize
  = Return (baseAssetAmount - Z.rem baseAssetAmount stepSize).
Proof.
  intros Hstep. unfold standardizeBaseAssetAmount, BN.mod_.
  destruct (Z.eqb_spec stepSize 0) as [E | _]; [contradiction | reflexivity].
Qed.

(** Case analysis on every comparison of [BN]s in the goal. *)
Ltac bn_cases :=
  unfold ZERO, TWO in *;
  repeat match goal with
    | |- context [?a =? ?b] => destruct (Z.eqb_spec a b)
    | |- context [?a <? ?b] => destruct (Z.ltb_spec a b)
    | |- context [?a <=? ?b] => destruct (Z.leb_spec a b)
    | |- context [?a >? ?b] => rewrite (Z.gtb_ltb a b)
    | |- context [?a >=? ?b] => rewrite (Z.geb_leb a b)
    end.

(** The tests on a direction that is known. *)
Ltac direction_tests :=
  change (isVariant short "long") with false;
  change (isVariant short "short") with true;
  change (isVariant long "long") with true;
  change (isVariant long "short") with false;
  rewrite ?andb_false_r, ?andb_true_r.

(** ** The risk classifiers *)

(** C1: the flip rule.  For an order that is not uninitialized (an open order
    in particular) and whose direction opposes the trader's non-zero position,
    [isOrderRiskIncreasing] answers true exactly when the unfilled remainder
    exceeds twice the absolute position, and
    [isOrderRiskIncreasingInSameDirection] answers false; with a position of
    [+10] the threshold on the remainder is [20]. *)
Theorem isOrderRiskIncreasing_flip_rule (user : User.t) (order : Order.t) :
  Order.status order <> init ->
  (0 < PerpPosition.baseAssetAmount (positionOf user order)
   /\ Order.direction order = short)
  \/ (PerpPosition.baseAssetAmount (positionOf user order) < 0
      /\ Order.direction order = long) ->
  (isOrderRiskIncreasing user order = true
   <-> Order.baseAssetAmount order - Order.baseAssetAmountFilled order
       > 2 * Z.abs (PerpPosition.baseAssetAmount (positionOf user order)))
  /\ isOrderRiskIncreasingInSameDirection user order = false
  /\ (PerpPosition.baseAssetAmount (positionOf user order) = 10 ->
      (isOrderRiskIncreasing user order = true
       <-> Order.baseAssetAmount order - Order.baseAssetAmountFilled order > 20)).
Proof using.
  intros Hinit Hopposed.
  unfold isOrderRiskIncreasing, isOrderRiskIncreasingInSameDirection.
  destruct (isVariant (Order.status order) "init") eqn:Estatus.
  { apply isVariant_init in Estatus. contradiction. }
  destruct Hopposed as [[Hposition Hdirection] | [Hposition Hdirection]];
    rewrite Hdirection; cbv zeta;
    direction_tests; bn_cases; try lia;
    intuition (discriminate || lia || reflexivity).
Qed.

(** C7: an uninitialized order is a no-op for the four classifiers. *)
Theorem uninitialized_order_is_noop (user : User.t) (order : Order.t) (ts : Z) :
  Order.status order = init ->
  isOrderRiskIncreasing user order = false
  /\ isOrderRiskIncreasingInSameDirection user order = false
  /\ isOrderReduceOnly user order = false
  /\ isOrderExpired order ts = false.
Proof using.
  intros Hinit.
  unfold isOrderRiskIncreasing, isOrderRiskIncreasingInSameDirection,
    isOrderReduceOnly, isOrderExpired.
  rewrite Hinit.
  change (isVariant init "init") with true.
  change (isVariant init "open") with false.
  cbn [negb]. rewrite orb_true_r. cbn [orb].
  repeat split.
Qed.

(** C8: for an order that is not uninitialized, [isOrderReduceOnly] answers
    false exactly when the position is non-negative and the order long, or
    the position non-positive and the order short, and true otherwise; on a
    flat position it answers false while [isOrderRiskIncreasing] answers
    true. *)
Theorem isOrderReduceOnly_zero_position_asymmetry (user : User.t) (order : Order.t) :
  Order.status order <> init ->
  (isOrderReduceOnly user order = false
   <-> (0 <= PerpPosition.baseAssetAmount (positionOf user order)
        /\ Order.direction order = long)
       \/ (PerpPosition.baseAssetAmount (positionOf user order) <= 0
           /\ Order.direction order = short))
  /\ (isOrderReduceOnly user order = true
      <-> ~ ((0 <= PerpPosition.baseAssetAmount (positionOf user order)
              /\ Order.direction order = long)
             \/ (PerpPosition.baseAssetAmount (positionOf user order) <= 0
                 /\ Order.direction order = short)))
  /\ (PerpPosition.baseAssetAmount (positionOf user order) = 0 ->
      isOrderReduceOnly user order = false
      /\ isOrderRiskIncreasing user order = true).
Proof using.
  intros Hinit. clear - Hinit.
  unfold isOrderReduceOnly, isOrderRiskIncreasing.
  destruct (isVariant (Order.status order) "init") eqn:Estatus.
  { apply isVariant_init in Estatus. contradiction. }
  cbv zeta.
  destruct (Order.direction order);
    direction_tests; bn_cases; try lia;
    intuition (discriminate || lia || reflexivity).
Qed.

(** ** Step-size rounding *)

(** C6: on a non-negative quantity and a positive step size,
    [standardizeBaseAssetAmount] returns the quantity minus its remainder
    modulo the step: a multiple of the step, not above the quantity, and
    the largest such multiple; [1250] with step [100] gives [1200]. *)
Theorem standardizeBaseAssetAmount_rounds_down (q s : Z) :
  0 <= q -> 0 < s ->
  standardizeBaseAssetAmount q s = Return (q - q mod s)
  /\ (s | q - q mod s)
  /\ q - q mod s <= q
  /\ (forall m : Z, (s | m) -> m <= q -> m <= q - q mod s)
  /\ standardizeBaseAssetAmount 1250 100 = Return 1200.
Proof using.
  intros Hq Hs.
  pose proof (Z.mod_pos_bound q s Hs) as Hbound.
  repeat split.
  - rewrite standardizeBaseAssetAmount_returns by lia.
    rewrite Z.rem_mod_nonneg by lia. reflexivity.
  - exists (q / s). rewrite (Z.mod_eq q s) by lia. ring.
  - lia.
  - intros m [k Hk] Hle. subst m.
    assert (Hdiv : k <= q / s) by (apply Z.div_le_lower_bound; lia).
    rewrite (Z.mod_eq q s) by lia. nia.
Qed.

(** ** Taking and resting orders *)

(** C10: [isTakingOrder] is the negation of [isRestingLimitOrder], the
    market-order types and the limit-order types being disjoint and covering
    the five order types. *)
Theorem isTakingOrder_negates_isRestingLimitOrder (order : Order.t) (slot : Z) :
  (isTakingOrder order slot = true <-> isRestingLimitOrder order slot = false)
  /\ isTakingOrder order slot = negb (isRestingLimitOrder order slot)
  /\ isMarketOrder order = negb (isLimitOrder order).
Proof.
  assert (Hneg : isTakingOrder order slot = negb (isRestingLimitOrder order slot)).
  { unfold isTakingOrder, isRestingLimitOrder.
    rewrite isMarketOrder_isLimitOrder.
    destruct (isLimitOrder order); reflexivity. }
  split; [| split; [exact Hneg | apply isMarketOrder_isLimitOrder]].
  rewrite Hneg. apply negb_true_iff.
Qed.

(** ** The limit price *)

Lemma hasAuctionPrice_iff (order : Order.t) (slot : Z) :
  hasAuctionPrice order slot = true
  <-> isAuctionComplete order slot = false
      /\ (Order.auctionStartPrice order <> 0 \/ Order.auctionEndPrice order <> 0).
Proof.
  unfold hasAuctionPrice.
  destruct (isAuctionComplete order slot); cbn [negb andb].
  - split; [discriminate | intros [E _]; discriminate E].
  - bn_cases; cbn [negb orb]; split; intros E;
      try discriminate E; try reflexivity; try (split; [reflexivity | lia]).
    destruct E as [_ [E | E]]; contradiction.
Qed.

(** C2: the precedence of [getLimitPrice].  (1) While the auction is
    incomplete and one of its two prices is non-zero, the auction price;
    (2) else, with a non-zero oracle offset, the oracle price plus the
    offset; (3) else, with a static price of zero, the fallback price,
    undefined when none is supplied; (4) else the static price. *)
Theorem getLimitPrice_precedence (order : Order.t)
  (oraclePriceData : OraclePriceData.t) (slot : Z) (fallbackPrice : option Z) :
  (isAuctionComplete order slot = false
   /\ (Order.auctionStartPrice order <> 0 \/ Order.auctionEndPrice order <> 0) ->
   getLimitPrice order oraclePriceData slot fallbackPrice
   = Some (getAuctionPrice order slot (OraclePriceData.price oraclePriceData)))
  /\ (~ (isAuctionComplete order slot = false
         /\ (Order.auctionStartPrice order <> 0 \/ Order.auctionEndPrice order <> 0)) ->
      (Order.oraclePriceOffset order <> 0 ->
       getLimitPrice order oraclePriceData slot fallbackPrice
       = Some (OraclePriceData.price oraclePriceData + Order.oraclePriceOffset order))
      /\ (Order.oraclePriceOffset order = 0 -> Order.price order = 0 ->
          getLimitPrice order oraclePriceData slot fallbackPrice = fallbackPrice)
      /\ (Order.oraclePriceOffset order = 0 -> Order.price order <> 0 ->
          getLimitPrice order oraclePriceData slot fallbackPrice
          = Some (Order.price order))).
Proof.
  unfold getLimitPrice. split.
  - intros Hactive. apply hasAuctionPrice_iff in Hactive.
    rewrite Hactive. reflexivity.
  - intros Hinactive.
    destruct (hasAuctionPrice order slot) eqn:Eauction.
    { apply hasAuctionPrice_iff in Eauction. contradiction. }
    bn_cases; cbn [negb]; repeat split; intros; (reflexivity || contradiction).
Qed.

(** ** The quantity the AMM can fill *)

(** C4: the trigger gate.  An order of type [triggerMarket] or
    [triggerLimit] whose trigger condition is neither [triggeredAbove] nor
    [triggeredBelow] gets the quantity zero, whatever the market, the oracle
    price and the slot. *)
Theorem untriggered_order_fills_zero (order : Order.t)
  (market : PerpMarketAccount.t Curve) (oraclePriceData : OraclePriceData.t)
  (slot : Z) :
  Order.orderType order = triggerMarket \/ Order.orderType order = triggerLimit ->
  Order.triggerCondition order <> triggeredAbove ->
  Order.triggerCondition order <> triggeredBelow ->
  calculateBaseAssetAmountForAmmToFulfill order market oraclePriceData slot = Return 0.
Proof.
  intros Htype Habove Hbelow.
  unfold calculateBaseAssetAmountForAmmToFulfill.
  apply mustBeTriggered_iff in Htype. rewrite Htype.
  destruct (isTriggered order) eqn:Etriggered.
  - apply isTriggered_iff in Etriggered. destruct Etriggered; contradiction.
  - reflexivity.
Qed.

(** C5: a direction mismatch yields zero.  When
    [calculateMaxBaseAssetAmountToTrade], asked at the limit price moved one
    tick against the order, reports a direction other than the order's, zero
    is the only quantity [calculateBaseAssetAmountToFillUpToLimitPrice]
    returns, whatever the maximum quantity reported with it, and it returns
    zero on every market with a non-zero order step size. *)
Theorem direction_mismatch_fills_zero (order : Order.t) (amm : AMM.t Curve)
  (limitPrice : Z) (oraclePriceData : OraclePriceData.t)
  (maxAmountToTrade : Z) (direction : PositionDirection) :
  calculateMaxBaseAssetAmountToTrade amm
    (if isVariant (Order.direction order) "long"
     then limitPrice - AMM.orderTickSize amm
     else limitPrice + AMM.orderTickSize amm)
    (Order.direction order) oraclePriceData
  = (maxAmountToTrade, direction) ->
  direction <> Order.direction order ->
  (forall quantity : Z,
     calculateBaseAssetAmountToFillUpToLimitPrice order amm limitPrice oraclePriceData
     = Return quantity ->
     quantity = 0)
  /\ (AMM.orderStepSize amm <> 0 ->
      calculateBaseAssetAmountToFillUpToLimitPrice order amm limitPrice oraclePriceData
      = Return 0).
Proof.
  intros Hcurve Hmismatch.
  assert (Hsame : isSameDirection direction (Order.direction order) = false).
  { destruct (isSameDirection direction (Order.direction order)) eqn:Esame;
      [| reflexivity].
    apply isSameDirection_iff in Esame. contradiction. }
  unfold calculateBaseAssetAmountToFillUpToLimitPrice.
  rewrite Hcurve, Hsame.
  split.
  - intros quantity.
    destruct (standardizeBaseAssetAmount maxAmountToTrade (AMM.orderStepSize amm))
      as [baseAssetAmount | message]; cbn [bind ret Monad_Result negb];
      [| discriminate].
    intros Hreturn. injection Hreturn as <-. reflexivity.
  - intros Hstep.
    rewrite standardizeBaseAssetAmount_returns by assumption.
    reflexivity.
Qed.

(** *** Whether the quantity computation returns *)

Lemma calculateBaseAssetAmountToFillUpToLimitPrice_returns (order : Order.t)
  (amm : AMM.t Curve) (limitPrice : Z) (oraclePriceData : OraclePriceData.t) :
  AMM.orderStepSize amm <> 0 ->
  exists quantity : Z,
    calculateBaseAssetAmountToFillUpToLimitPrice order amm limitPrice oraclePriceData
    = Return quantity.
Proof.
  intros Hstep. unfold calculateBaseAssetAmountToFillUpToLimitPrice.
  destruct (calculateMaxBaseAssetAmountToTrade _ _ _ _) as [maxAmountToTrade direction].
  rewrite standardizeBaseAssetAmount_returns by assumption.
  cbn [bind ret Monad_Result].
  destruct (negb (isSameDirection direction (Order.direction order)));
    eexists; reflexivity.
Qed.

Lemma calculateBaseAssetAmountToFillUpToLimitPrice_throws (order : Order.t)
  (amm : AMM.t Curve) (limitPrice : Z) (oraclePriceData : OraclePriceData.t) :
  AMM.orderStepSize amm = 0 ->
  calculateBaseAssetAmountToFillUpToLimitPrice order amm limitPrice oraclePriceData
  = Throw "Assertion failed".
Proof.
  intros Hstep. unfold calculateBaseAssetAmountToFillUpToLimitPrice.
  destruct (calculateMaxBaseAssetAmountToTrade _ _ _ _) as [maxAmountToTrade direction].
  rewrite Hstep. reflexivity.
Qed.

Lemma calculateBaseAssetAmountToFillUpToLimitPrice_capped (order : Order.t)
  (amm : AMM.t Curve) (limitPrice : Z) (oraclePriceData : OraclePriceData.t)
  (quantity : Z) :
  Order.baseAssetAmountFilled order <= Order.baseAssetAmount order ->
  calculateBaseAssetAmountToFillUpToLimitPrice order amm limitPrice oraclePriceData
  = Return quantity ->
  quantity <= Order.baseAssetAmount order - Order.baseAssetAmountFilled order.
Proof.
  intros Hfilled. unfold calculateBaseAssetAmountToFillUpToLimitPrice.
  destruct (calculateMaxBaseAssetAmountToTrade _ _ _ _) as [maxAmountToTrade direction].
  destruct (standardizeBaseAssetAmount maxAmountToTrade (AMM.orderStepSize amm))
    as [baseAssetAmount | message]; cbn [bind ret Monad_Result];
    [| discriminate].
  destruct (negb (isSameDirection direction (Order.direction order)));
    intros Hreturn; injection Hreturn as <-; bn_cases; lia.
Qed.

Lemma calculateBaseAssetAmountForAmmToFulfill_returns (order : Order.t)
  (market : PerpMarketAccount.t Curve) (oraclePriceData : OraclePriceData.t)
  (slot : Z) :
  AMM.orderStepSize (calculateUpdatedAMM (PerpMarketAccount.amm market) oraclePriceData) <> 0
  \/ mustBeTriggered order && negb (isTriggered order) = true
  \/ getLimitPrice order oraclePriceData slot None = None ->
  exists quantity : Z,
    calculateBaseAssetAmountForAmmToFulfill order market oraclePriceData slot
    = Return quantity.
Proof.
  intros Hreturns. unfold calculateBaseAssetAmountForAmmToFulfill.
  destruct (mustBeTriggered order && negb (isTriggered order)).
  { eexists; reflexivity. }
  destruct Hreturns as [Hstep | [Hgate | Hprice]]; [| discriminate Hgate |].
  - destruct (getLimitPrice order oraclePriceData slot None) as [limitPrice |].
    + destruct (calculateBaseAssetAmountToFillUpToLimitPrice_returns
                  order _ limitPrice oraclePriceData Hstep) as [quantity ->].
      eexists; reflexivity.
    + eexists; reflexivity.
  - rewrite Hprice. eexists; reflexivity.
Qed.

(** C9: with the filled amount not above the order's amount, every quantity
    [calculateBaseAssetAmountForAmmToFulfill] returns is at most the unfilled
    remainder, and past the trigger gate also at most the maximum the curve
    can fill; it returns a quantity whenever the order step size is non-zero,
    the order is held at the trigger gate or no limit price is defined. *)
Theorem fill_quantity_within_unfilled_remainder (order : Order.t)
  (market : PerpMarketAccount.t Curve) (oraclePriceData : OraclePriceData.t)
  (slot : Z) :
  Order.baseAssetAmountFilled order <= Order.baseAssetAmount order ->
  (forall quantity : Z,
     calculateBaseAssetAmountForAmmToFulfill order market oraclePriceData slot
     = Return quantity ->
     quantity <= Order.baseAssetAmount order - Order.baseAssetAmountFilled order
     /\ (mustBeTriggered order && negb (isTriggered order) = true -> quantity = 0)
     /\ (mustBeTriggered order && negb (isTriggered order) = false ->
         quantity
         <= calculateMaxBaseAssetAmountFillable
              (calculateUpdatedAMM (PerpMarketAccount.amm market) oraclePriceData)
              (Order.direction order)))
  /\ (AMM.orderStepSize
        (calculateUpdatedAMM (PerpMarketAccount.amm market) oraclePriceData) <> 0
      \/ mustBeTriggered order && negb (isTriggered order) = true
      \/ getLimitPrice order oraclePriceData slot None = None ->
      exists quantity : Z,
        calculateBaseAssetAmountForAmmToFulfill order market oraclePriceData slot
        = Return quantity).
Proof.
  intros Hfilled.
  split; [| apply calculateBaseAssetAmountForAmmToFulfill_returns].
  intros quantity. unfold calculateBaseAssetAmountForAmmToFulfill.
  destruct (mustBeTriggered order && negb (isTriggered order)).
  { intros Hreturn. injection Hreturn as <-. unfold ZERO.
    repeat split; (lia || discriminate || reflexivity). }
  destruct (getLimitPrice order oraclePriceData slot None) as [limitPrice |].
  - destruct (calculateBaseAssetAmountToFillUpToLimitPrice order _ limitPrice _)
      as [baseAssetAmount | message] eqn:Ecapped; cbn [bind ret Monad_Result];
      [| discriminate].
    apply calculateBaseAssetAmountToFillUpToLimitPrice_capped in Ecapped;
      [| assumption].
    intros Hreturn. injection Hreturn as <-. rewrite BN_min_spec.
    repeat split; (lia || discriminate).
  - cbn [bind ret Monad_Result].
    intros Hreturn. injection Hreturn as <-. rewrite BN_min_spec.
    repeat split; (lia || discriminate).
Qed.

(** C3: the curve fill-eligibility check.  Whenever [isFillableByVAMM]
    returns, it returns true exactly when the auction is complete and the
    quantity [calculateBaseAssetAmountForAmmToFulfill] returns is at least
    the market's [minOrderSize], or the order is expired at the timestamp.
    At a timestamp [new BN] accepts it does return whenever the step
    rounding is not reached with a step of zero: the updated AMM has a
    non-zero order step size, or the auction is incomplete, the order is
    held at the trigger gate or no limit price is defined. *)
Theorem isFillableByVAMM_iff (order : Order.t)
  (market : PerpMarketAccount.t Curve) (oraclePriceData : OraclePriceData.t)
  (slot ts : Z) :
  (forall fillable : bool,
     isFillableByVAMM order market oraclePriceData slot ts = Return fillable ->
     (fillable = true
      <-> (isAuctionComplete order slot = true
           /\ exists quantity : Z,
               calculateBaseAssetAmountForAmmToFulfill
                 order market oraclePriceData slot
               = Return quantity
               /\ quantity >= AMM.minOrderSize (PerpMarketAccount.amm market))
          \/ isOrderExpired order ts = true))
  /\ (Z.abs ts < 2 ^ 53 ->
      AMM.orderStepSize
        (calculateUpdatedAMM (PerpMarketAccount.amm market) oraclePriceData) <> 0
      \/ isAuctionComplete order slot = false
      \/ mustBeTriggered order && negb (isTriggered order) = true
      \/ getLimitPrice order oraclePriceData slot None = None ->
      exists fillable : bool,
        isFillableByVAMM order market oraclePriceData slot ts = Return fillable).
Proof.
  unfold isFillableByVAMM.
  destruct (isAuctionComplete order slot) eqn:Ecomplete.
  - split.
    + intros fillable.
      destruct (calculateBaseAssetAmountForAmmToFulfill
                  order market oraclePriceData slot)
        as [quantity | message]; cbn [bind ret Monad_Result]; [| discriminate].
      intros Hreturn. injection Hreturn as <-.
      rewrite orb_true_iff, Z.geb_leb, Z.leb_le.
      split; intros [H | H]; auto.
      * left. split; [reflexivity |]. exists quantity. split; [reflexivity | lia].
      * destruct H as [_ [quantity' [Hreturn Hsize]]].
        injection Hreturn as <-. left. lia.
    + intros _ Hreached.
      destruct (calculateBaseAssetAmountForAmmToFulfill_returns
                  order market oraclePriceData slot) as [quantity ->].
      { destruct Hreached as [H | [H | H]];
          [left; exact H | discriminate H | right; exact H]. }
      eexists. reflexivity.
  - split.
    + intros fillable Hreturn. injection Hreturn as <-.
      split; [auto |]. intros [[H _] | H]; [discriminate H | exact H].
    + intros _ _. eexists. reflexivity.
Qed.

(** Otherwise the quantity computation is reached and throws. *)
Lemma isFillableByVAMM_throws (order : Order.t)
  (market : PerpMarketAccount.t Curve) (oraclePriceData : OraclePriceData.t)
  (slot ts limitPrice : Z) :
  AMM.orderStepSize
    (calculateUpdatedAMM (PerpMarketAccount.amm market) oraclePriceData) = 0 ->
  isAuctionComplete order slot = true ->
  mustBeTriggered order && negb (isTriggered order) = false ->
  getLimitPrice order oraclePriceData slot None = Some limitPrice ->
  isFillableByVAMM order market oraclePriceData slot ts = Throw "Assertion failed".
Proof.
  intros Hstep Hcomplete Hgate Hprice.
  unfold isFillableByVAMM, calculateBaseAssetAmountForAmmToFulfill.
  rewrite Hcomplete, Hgate, Hprice.
  rewrite calculateBaseAssetAmountToFillUpToLimitPrice_throws by assumption.
  reflexivity.
Qed.

(** ** Further properties of the risk classifiers *)

(** X1: an order that increases risk in the direction of the position is
    risk increasing; an order that is risk increasing without being so in
    the same direction opposes a non-zero position and has more than twice
    that position left to fill. *)
Theorem same_direction_increase_is_risk_increasing (user : User.t) (order : Order.t) :
  (isOrderRiskIncreasingInSameDirection user order = true ->
   isOrderRiskIncreasing user order = true)
  /\ (isOrderRiskIncreasing user order = true ->
      isOrderRiskIncreasingInSameDirection user order = false ->
      PerpPosition.baseAssetAmount (positionOf user order) <> 0
      /\ Order.baseAssetAmount order - Order.baseAssetAmountFilled order
         > 2 * Z.abs (PerpPosition.baseAssetAmount (positionOf user order))).
Proof using.
  clear.
  unfold isOrderRiskIncreasing, isOrderRiskIncreasingInSameDirection.
  destruct (isVariant (Order.status order) "init"); [split; discriminate |].
  cbv zeta.
  destruct (Order.direction order); direction_tests; bn_cases;
    split; intros; try discriminate; try reflexivity; try lia.
Qed.

(** X2: for an order that is not uninitialized, [isOrderReduceOnly] is the
    negation of [isOrderRiskIncreasingInSameDirection]. *)
Theorem isOrderReduceOnly_negates_same_direction (user : User.t) (order : Order.t) :
  Order.status order <> init ->
  isOrderReduceOnly user order
  = negb (isOrderRiskIncreasingInSameDirection user order).
Proof using.
  intros Hinit. clear - Hinit.
  unfold isOrderReduceOnly, isOrderRiskIncreasingInSameDirection.
  destruct (isVariant (Order.status order) "init") eqn:Estatus.
  { apply isVariant_init in Estatus. contradiction. }
  cbv zeta.
  destruct (Order.direction order); direction_tests; bn_cases;
    (reflexivity || lia).
Qed.

(** X3: long and short are mirror images.  Two orders of the same status
    and the same unfilled remainder, in opposite directions, against
    opposite positions, get the same answer from the three classifiers. *)
Theorem classifiers_mirror_long_short (user user' : User.t) (order order' : Order.t) :
  Order.status order' = Order.status order ->
  Order.direction order' <> Order.direction order ->
  PerpPosition.baseAssetAmount (positionOf user' order')
  = - PerpPosition.baseAssetAmount (positionOf user order) ->
  Order.baseAssetAmount order' - Order.baseAssetAmountFilled order'
  = Order.baseAssetAmount order - Order.baseAssetAmountFilled order ->
  isOrderRiskIncreasing user' order' = isOrderRiskIncreasing user order
  /\ isOrderRiskIncreasingInSameDirection user' order'
     = isOrderRiskIncreasingInSameDirection user order
  /\ isOrderReduceOnly user' order' = isOrderReduceOnly user order.
Proof using.
  intros Hstatus Hdirection Hposition Hremainder.
  clear - Hstatus Hdirection Hposition Hremainder.
  unfold isOrderRiskIncreasing, isOrderRiskIncreasingInSameDirection,
    isOrderReduceOnly.
  rewrite Hstatus, Hposition, Hremainder.
  destruct (isVariant (Order.status order) "init"); [repeat split |].
  cbv zeta.
  destruct (Order.direction order), (Order.direction order');
    try contradiction; direction_tests; bn_cases;
    repeat split; (reflexivity || lia).
Qed.

(** X4: with the status, the direction and the position unchanged, a larger
    unfilled remainder keeps an order risk increasing; filling more of an
    order never makes it risk increasing. *)
Theorem isOrderRiskIncreasing_monotone_in_remainder (user : User.t)
  (order order' : Order.t) :
  Order.status order' = Order.status order ->
  Order.direction order' = Order.direction order ->
  PerpPosition.baseAssetAmount (positionOf user order')
  = PerpPosition.baseAssetAmount (positionOf user order) ->
  Order.baseAssetAmount order - Order.baseAssetAmountFilled order
  <= Order.baseAssetAmount order' - Order.baseAssetAmountFilled order' ->
  isOrderRiskIncreasing user order = true ->
  isOrderRiskIncreasing user order' = true.
Proof using.
  intros Hstatus Hdirection Hposition Hremainder.
  clear - Hstatus Hdirection Hposition Hremainder.
  unfold isOrderRiskIncreasing.
  rewrite Hstatus, Hdirection, Hposition.
  destruct (isVariant (Order.status order) "init"); [discriminate |].
  cbv zeta.
  destruct (Order.direction order); direction_tests; bn_cases;
    intros; try discriminate; try reflexivity; lia.
Qed.

(** ** Further properties of the step-size rounding *)

(** The remainder [BN.mod] leaves, for any signs: it has the sign of the
    dividend and is smaller than both the dividend and the divisor. *)
Lemma rem_truncated (q s : Z) :
  s <> 0 ->
  Z.abs (Z.rem q s) < Z.abs s
  /\ Z.abs (Z.rem q s) <= Z.abs q
  /\ (0 <= q -> 0 <= Z.rem q s)
  /\ (q <= 0 -> Z.rem q s <= 0).
Proof using.
  intros Hs. clear - Hs.
  rewrite (Z.rem_mod q s Hs).
  assert (Hstep : 0 < Z.abs s) by lia.
  pose proof (Z.mod_pos_bound (Z.abs q) (Z.abs s) Hstep) as Hbound.
  pose proof (Z.mod_le (Z.abs q) (Z.abs s) (Z.abs_nonneg q) Hstep) as Hle.
  destruct (Z.sgn_spec q) as [[Hq ->] | [[Hq ->] | [Hq ->]]];
    repeat split; intros; lia.
Qed.

(** X5: rounding to the step is idempotent, whatever the signs of the
    quantity and of the non-zero step. *)
Theorem standardizeBaseAssetAmount_idempotent (q s r : Z) :
  standardizeBaseAssetAmount q s = Return r ->
  standardizeBaseAssetAmount r s = Return r.
Proof using.
  clear. unfold standardizeBaseAssetAmount, BN.mod_.
  destruct (Z.eqb_spec s 0) as [E | Hs]; cbn [bind ret Monad_Result];
    [discriminate |].
  intros Hreturn. injection Hreturn as <-.
  replace (q - Z.rem q s) with (Z.quot q s * s)
    by (pose proof (Z.quot_rem' q s); lia).
  rewrite Z.rem_mul by assumption.
  f_equal. lia.
Qed.

(** X6: with a non-zero step of either sign, the rounding returns a
    multiple of the step that lies between zero and the quantity, less than
    one step away from it: it truncates towards zero, so a negative quantity
    is rounded up. *)
Theorem standardizeBaseAssetAmount_truncates_toward_zero (q s : Z) :
  s <> 0 ->
  exists r : Z,
    standardizeBaseAssetAmount q s = Return r
    /\ (s | r)
    /\ Z.abs r <= Z.abs q
    /\ Z.abs (q - r) < Z.abs s
    /\ (0 <= q -> 0 <= r <= q)
    /\ (q <= 0 -> q <= r <= 0).
Proof using.
  intros Hs. clear - Hs.
  exists (q - Z.rem q s).
  destruct (rem_truncated q s Hs) as [Hstep [Hle [Hpos Hneg]]].
  split; [apply standardizeBaseAssetAmount_returns; assumption |].
  split.
  { exists (Z.quot q s). pose proof (Z.quot_rem' q s). lia. }
  replace (q - (q - Z.rem q s)) with (Z.rem q s) by lia.
  repeat split; intros; try lia.
Qed.

(** X7: the quantities the rounding leaves unchanged are the multiples of
    the step. *)
Theorem standardizeBaseAssetAmount_fixed_points (q s : Z) :
  s <> 0 ->
  standardizeBaseAssetAmount q s = Return q <-> (s | q).
Proof using.
  intros Hs. clear - Hs.
  rewrite standardizeBaseAssetAmount_returns by assumption.
  rewrite <- (Z.rem_divide q s Hs).
  split; intros H.
  - injection H as H. lia.
  - rewrite H. f_equal. lia.
Qed.

(** ** Further properties of the limit price *)

(** X8: the fallback price only fills the gap: with a fallback
    [getLimitPrice] returns what it returns without one, and the fallback
    where that is undefined. *)
Theorem getLimitPrice_fallback_fills_gap (order : Order.t)
  (oraclePriceData : OraclePriceData.t) (slot : Z) (fallbackPrice : option Z) :
  getLimitPrice order oraclePriceData slot fallbackPrice
  = match getLimitPrice order oraclePriceData slot None with
    | Some limitPrice => Some limitPrice
    | None => fallbackPrice
    end.
Proof.
  unfold getLimitPrice.
  destruct (hasAuctionPrice order slot); [reflexivity |].
  destruct (negb (Order.oraclePriceOffset order =? 0)); [reflexivity |].
  destruct (Order.price order =? ZERO); reflexivity.
Qed.

(** X9: [hasLimitPrice] against [getLimitPrice] without fallback.  An
    auction price makes [hasLimitPrice] true; so does any defined limit
    price of an order whose static price is not negative; and
    [hasLimitPrice] is true with no limit price defined exactly for an
    incomplete auction with both auction prices, the oracle offset and the
    static price zero. *)
Theorem hasLimitPrice_against_getLimitPrice (order : Order.t)
  (oraclePriceData : OraclePriceData.t) (slot : Z) :
  (hasAuctionPrice order slot = true -> hasLimitPrice order slot = true)
  /\ (0 <= Order.price order ->
      getLimitPrice order oraclePriceData slot None <> None ->
      hasLimitPrice order slot = true)
  /\ (hasLimitPrice order slot = true
      /\ getLimitPrice order oraclePriceData slot None = None
      <-> isAuctionComplete order slot = false
          /\ Order.auctionStartPrice order = 0
          /\ Order.auctionEndPrice order = 0
          /\ Order.oraclePriceOffset order = 0
          /\ Order.price order = 0).
Proof.
  unfold hasLimitPrice, getLimitPrice, hasAuctionPrice.
  destruct (isAuctionComplete order slot); cbn [negb andb orb];
    rewrite ?orb_true_r, ?orb_false_r; bn_cases; cbn [negb andb orb];
    repeat split; intros; try reflexivity; try discriminate; try lia;
    try tauto; try congruence;
    repeat match goal with
      | H : _ /\ _ |- _ => destruct H
      end; try discriminate; try lia; try congruence.
Qed.

(** ** Further properties of expiry and of taking orders *)

(** X10: expiry is monotone in time.  For timestamps [new BN] accepts
    (below [2^53] in absolute value), an order expired at a timestamp is
    open, is past its non-zero [maxTs], and is expired at every later
    timestamp. *)
Theorem isOrderExpired_monotone (order : Order.t) (ts ts' : Z) :
  Z.abs ts < 2 ^ 53 ->
  Z.abs ts' < 2 ^ 53 ->
  isOrderExpired order ts = true ->
  ts <= ts' ->
  isOrderExpired order ts' = true
  /\ Order.status order = open
  /\ Order.maxTs order <> 0
  /\ Order.maxTs order < ts.
Proof using.
  clear. intros _ _. unfold isOrderExpired.
  destruct (mustBeTriggered order); cbn [orb]; [discriminate |].
  destruct (isVariant (Order.status order) "open") eqn:Estatus;
    cbn [negb orb]; [| discriminate].
  apply isVariant_open in Estatus.
  bn_cases; intros Hexpired Hlater; try discriminate;
    repeat split; try assumption; lia.
Qed.

(** X11: an order is taking exactly when it is of a market-order type, or is
    not post-only and still in its auction; a post-only limit order is never
    taking. *)
Theorem isTakingOrder_iff (order : Order.t) (slot : Z) :
  (isTakingOrder order slot = true
   <-> isMarketOrder order = true
       \/ (Order.postOnly order = false /\ isAuctionComplete order slot = false))
  /\ (isLimitOrder order = true -> Order.postOnly order = true ->
      isTakingOrder order slot = false).
Proof.
  unfold isTakingOrder, isRestingLimitOrder.
  rewrite isMarketOrder_isLimitOrder.
  destruct (isLimitOrder order), (Order.postOnly order),
    (isAuctionComplete order slot); cbn [negb andb orb];
    (split; [split; [auto | intros [H | [H1 H2]]; (reflexivity || discriminate)]
            | intros; (reflexivity || discriminate)]).
Qed.

(** ** Further properties of the quantity the AMM can fill *)

(** What a returned quantity of the limit-price computation is. *)
Lemma calculateBaseAssetAmountToFillUpToLimitPrice_inv (order : Order.t)
  (amm : AMM.t Curve) (limitPrice : Z) (oraclePriceData : OraclePriceData.t)
  (quantity : Z) :
  calculateBaseAssetAmountToFillUpToLimitPrice order amm limitPrice oraclePriceData
  = Return quantity ->
  AMM.orderStepSize amm <> 0
  /\ exists (maxAmountToTrade : Z) (direction : PositionDirection),
      calculateMaxBaseAssetAmountToTrade amm
        (if isVariant (Order.direction order) "long"
         then limitPrice - AMM.orderTickSize amm
         else limitPrice + AMM.orderTickSize amm)
        (Order.direction order) oraclePriceData
      = (maxAmountToTrade, direction)
      /\ ((direction <> Order.direction order /\ quantity = 0)
          \/ (direction = Order.direction order
              /\ quantity
                 = Z.min
                     (maxAmountToTrade - Z.rem maxAmountToTrade (AMM.orderStepSize amm))
                     (Order.baseAssetAmount order - Order.baseAssetAmountFilled order))).
Proof.
  unfold calculateBaseAssetAmountToFillUpToLimitPrice.
  destruct (calculateMaxBaseAssetAmountToTrade _ _ _ _)
    as [maxAmountToTrade direction] eqn:Ecurve.
  destruct (Z.eq_dec (AMM.orderStepSize amm) 0) as [Hstep | Hstep].
  { rewrite Hstep. discriminate. }
  rewrite standardizeBaseAssetAmount_returns by assumption.
  cbn [bind ret Monad_Result].
  intros Hreturn. split; [assumption |].
  exists maxAmountToTrade, direction. split; [reflexivity |].
  destruct (isSameDirection direction (Order.direction order)) eqn:Esame;
    cbn [negb] in Hreturn; injection Hreturn as <-.
  - apply isSameDirection_iff in Esame. right. split; [assumption |].
    bn_cases; lia.
  - left. split; [| reflexivity].
    intros Heq. apply isSameDirection_iff in Heq. congruence.
Qed.

(** What a returned quantity of the whole computation is. *)
Lemma calculateBaseAssetAmountForAmmToFulfill_inv (order : Order.t)
  (market : PerpMarketAccount.t Curve) (oraclePriceData : OraclePriceData.t)
  (slot quantity : Z) :
  calculateBaseAssetAmountForAmmToFulfill order market oraclePriceData slot
  = Return quantity ->
  (mustBeTriggered order && negb (isTriggered order) = true /\ quantity = 0)
  \/ (mustBeTriggered order && negb (isTriggered order) = false
      /\ exists candidate : Z,
          match getLimitPrice order oraclePriceData slot None with
          | Some limitPrice =>
              calculateBaseAssetAmountToFillUpToLimitPrice order
                (calculateUpdatedAMM (PerpMarketAccount.amm market) oraclePriceData)
                limitPrice oraclePriceData
              = Return candidate
          | None =>
              candidate
              = Order.baseAssetAmount order - Order.baseAssetAmountFilled order
          end
          /\ quantity
             = Z.min
                 (calculateMaxBaseAssetAmountFillable
                    (calculateUpdatedAMM (PerpMarketAccount.amm market) oraclePriceData)
                    (Order.direction order))
                 candidate).
Proof.
  unfold calculateBaseAssetAmountForAmmToFulfill.
  destruct (mustBeTriggered order && negb (isTriggered order)).
  { intros Hreturn. injection Hreturn as <-. left. split; reflexivity. }
  intros Hreturn. right. split; [reflexivity |].
  destruct (getLimitPrice order oraclePriceData slot None) as [limitPrice |].
  - destruct (calculateBaseAssetAmountToFillUpToLimitPrice order _ limitPrice _)
      as [candidate | message]; cbn [bind ret Monad_Result] in Hreturn;
      [| discriminate].
    injection Hreturn as <-. exists candidate.
    split; [reflexivity | apply BN_min_spec].
  - cbn [bind ret Monad_Result] in Hreturn. injection Hreturn as <-.
    eexists. split; [reflexivity | apply BN_min_spec].
Qed.

(** X12: the step of zero.  Past the trigger gate, an order with a limit
    price makes the quantity computation throw on a market whose updated
    AMM has an order step size of zero, with the message of [BN.mod]'s
    assertion, and with it [isFillableByVAMM] once the auction is complete:
    the expiry of the order is not looked at. *)
Theorem zero_step_limit_fill_throws (order : Order.t)
  (market : PerpMarketAccount.t Curve) (oraclePriceData : OraclePriceData.t)
  (slot ts limitPrice : Z) :
  AMM.orderStepSize
    (calculateUpdatedAMM (PerpMarketAccount.amm market) oraclePriceData) = 0 ->
  mustBeTriggered order && negb (isTriggered order) = false ->
  getLimitPrice order oraclePriceData slot None = Some limitPrice ->
  calculateBaseAssetAmountForAmmToFulfill order market oraclePriceData slot
  = Throw "Assertion failed"
  /\ (isAuctionComplete order slot = true ->
      isFillableByVAMM order market oraclePriceData slot ts
      = Throw "Assertion failed").
Proof.
  intros Hstep Hgate Hprice.
  split.
  - unfold calculateBaseAssetAmountForAmmToFulfill.
    rewrite Hgate, Hprice.
    rewrite calculateBaseAssetAmountToFillUpToLimitPrice_throws by assumption.
    reflexivity.
  - intros Hcomplete.
    apply (isFillableByVAMM_throws order market oraclePriceData slot ts limitPrice);
      assumption.
Qed.

(** X14: when the curve mathematics reports no negative quantity and the
    filled amount is not above the order's amount, no returned quantity is
    negative, whatever the sign of the step. *)
Theorem fill_quantity_nonnegative (order : Order.t)
  (market : PerpMarketAccount.t Curve) (oraclePriceData : OraclePriceData.t)
  (slot quantity : Z) :
  (forall amm limitPrice direction oracle,
     0 <= fst (calculateMaxBaseAssetAmountToTrade amm limitPrice direction oracle)) ->
  (forall amm direction, 0 <= calculateMaxBaseAssetAmountFillable amm direction) ->
  Order.baseAssetAmountFilled order <= Order.baseAssetAmount order ->
  calculateBaseAssetAmountForAmmToFulfill order market oraclePriceData slot
  = Return quantity ->
  0 <= quantity.
Proof.
  intros Hcurve Hmax Hfilled Hreturn.
  apply calculateBaseAssetAmountForAmmToFulfill_inv in Hreturn.
  destruct Hreturn as [[_ ->] | [_ [candidate [Hcandidate ->]]]]; [lia |].
  specialize (Hmax (calculateUpdatedAMM (PerpMarketAccount.amm market) oraclePriceData)
                (Order.direction order)).
  destruct (getLimitPrice order oraclePriceData slot None) as [limitPrice |];
    [| lia].
  apply calculateBaseAssetAmountToFillUpToLimitPrice_inv in Hcandidate.
  destruct Hcandidate as [Hstep [maxAmountToTrade [direction [Ecurve Hcases]]]].
  assert (Hnonneg : 0 <= maxAmountToTrade).
  { change maxAmountToTrade with (fst (maxAmountToTrade, direction)).
    rewrite <- Ecurve. apply Hcurve. }
  destruct (rem_truncated maxAmountToTrade _ Hstep) as [_ [Hle [Hpos _]]].
  specialize (Hpos Hnonneg).
  destruct Hcases as [[_ ->] | [_ ->]]; lia.
Qed.

(** X15: under the same conditions an order that is filled in full gets
    nothing more from the AMM. *)
Theorem fully_filled_order_fills_zero (order : Order.t)
  (market : PerpMarketAccount.t Curve) (oraclePriceData : OraclePriceData.t)
  (slot quantity : Z) :
  (forall amm limitPrice direction oracle,
     0 <= fst (calculateMaxBaseAssetAmountToTrade amm limitPrice direction oracle)) ->
  (forall amm direction, 0 <= calculateMaxBaseAssetAmountFillable amm direction) ->
  Order.baseAssetAmountFilled order = Order.baseAssetAmount order ->
  calculateBaseAssetAmountForAmmToFulfill order market oraclePriceData slot
  = Return quantity ->
  quantity = 0.
Proof.
  intros Hcurve Hmax Hfilled Hreturn.
  apply calculateBaseAssetAmountForAmmToFulfill_inv in Hreturn.
  destruct Hreturn as [[_ ->] | [_ [candidate [Hcandidate ->]]]]; [reflexivity |].
  specialize (Hmax (calculateUpdatedAMM (PerpMarketAccount.amm market) oraclePriceData)
                (Order.direction order)).
  destruct (getLimitPrice order oraclePriceData slot None) as [limitPrice |];
    [| lia].
  apply calculateBaseAssetAmountToFillUpToLimitPrice_inv in Hcandidate.
  destruct Hcandidate as [Hstep [maxAmountToTrade [direction [Ecurve Hcases]]]].
  assert (Hnonneg : 0 <= maxAmountToTrade).
  { change maxAmountToTrade with (fst (maxAmountToTrade, direction)).
    rewrite <- Ecurve. apply Hcurve. }
  destruct (rem_truncated maxAmountToTrade _ Hstep) as [_ [Hle [Hpos _]]].
  specialize (Hpos Hnonneg).
  destruct Hcases as [[_ ->] | [_ ->]]; lia.
Qed.

(** X16: a quantity returned up to the limit price is a multiple of the
    order step size, or is the whole unfilled remainder. *)
Theorem limit_fill_is_step_multiple_or_remainder (order : Order.t)
  (amm : AMM.t Curve) (limitPrice : Z) (oraclePriceData : OraclePriceData.t)
  (quantity : Z) :
  calculateBaseAssetAmountToFillUpToLimitPrice order amm limitPrice oraclePriceData
  = Return quantity ->
  (AMM.orderStepSize amm | quantity)
  \/ quantity = Order.baseAssetAmount order - Order.baseAssetAmountFilled order.
Proof.
  intros Hreturn.
  apply calculateBaseAssetAmountToFillUpToLimitPrice_inv in Hreturn.
  destruct Hreturn as [Hstep [maxAmountToTrade [direction [_ Hcases]]]].
  destruct Hcases as [[_ ->] | [_ ->]].
  - left. apply Z.divide_0_r.
  - destruct (Z.min_spec
                (maxAmountToTrade - Z.rem maxAmountToTrade (AMM.orderStepSize amm))
                (Order.baseAssetAmount order - Order.baseAssetAmountFilled order))
      as [[_ ->] | [_ ->]]; [left | right; reflexivity].
    exists (Z.quot maxAmountToTrade (AMM.orderStepSize amm)).
    pose proof (Z.quot_rem' maxAmountToTrade (AMM.orderStepSize amm)). lia.
Qed.

(** Every returned quantity is at most the unfilled remainder and, past the
    trigger gate, at most what the curve can fill. *)
Lemma calculateBaseAssetAmountForAmmToFulfill_le (order : Order.t)
  (market : PerpMarketAccount.t Curve) (oraclePriceData : OraclePriceData.t)
  (slot quantity : Z) :
  Order.baseAssetAmountFilled order <= Order.baseAssetAmount order ->
  calculateBaseAssetAmountForAmmToFulfill order market oraclePriceData slot
  = Return quantity ->
  quantity <= Order.baseAssetAmount order - Order.baseAssetAmountFilled order
  /\ (quantity = 0
      \/ quantity
         <= calculateMaxBaseAssetAmountFillable
              (calculateUpdatedAMM (PerpMarketAccount.amm market) oraclePriceData)
              (Order.direction order)).
Proof.
  intros Hfilled Hreturn.
  apply calculateBaseAssetAmountForAmmToFulfill_inv in Hreturn.
  destruct Hreturn as [[_ ->] | [_ [candidate [Hcandidate ->]]]].
  { split; [lia | left; reflexivity]. }
  split; [| right; lia].
  destruct (getLimitPrice order oraclePriceData slot None) as [limitPrice |];
    [| lia].
  apply calculateBaseAssetAmountToFillUpToLimitPrice_capped in Hcandidate;
    [lia | assumption].
Qed.

(** X17: an order whose unfilled remainder is below the market's minimum
    order size is fillable by the AMM only once it has expired. *)
Theorem remainder_below_min_size_fillable_only_when_expired (order : Order.t)
  (market : PerpMarketAccount.t Curve) (oraclePriceData : OraclePriceData.t)
  (slot ts : Z) (fillable : bool) :
  Order.baseAssetAmountFilled order <= Order.baseAssetAmount order ->
  Order.baseAssetAmount order - Order.baseAssetAmountFilled order
  < AMM.minOrderSize (PerpMarketAccount.amm market) ->
  isFillableByVAMM order market oraclePriceData slot ts = Return fillable ->
  fillable = isOrderExpired order ts.
Proof.
  intros Hfilled Hsmall. unfold isFillableByVAMM.
  destruct (isAuctionComplete order slot).
  - destruct (calculateBaseAssetAmountForAmmToFulfill order market oraclePriceData slot)
      as [quantity | message] eqn:Equantity; cbn [bind ret Monad_Result];
      [| discriminate].
    apply calculateBaseAssetAmountForAmmToFulfill_le in Equantity;
      [| assumption].
    intros Hreturn. injection Hreturn as <-.
    bn_cases; [lia | reflexivity].
  - intros Hreturn. injection Hreturn as <-. reflexivity.
Qed.

(** X18: when the market's minimum order size is positive and above what
    the curve can fill in the order's direction, the order is fillable by
    the AMM only once it has expired. *)
Theorem curve_below_min_size_fillable_only_when_expired (order : Order.t)
  (market : PerpMarketAccount.t Curve) (oraclePriceData : OraclePriceData.t)
  (slot ts : Z) (fillable : bool) :
  0 < AMM.minOrderSize (PerpMarketAccount.amm market) ->
  calculateMaxBaseAssetAmountFillable
    (calculateUpdatedAMM (PerpMarketAccount.amm market) oraclePriceData)
    (Order.direction order)
  < AMM.minOrderSize (PerpMarketAccount.amm market) ->
  isFillableByVAMM order market oraclePriceData slot ts = Return fillable ->
  fillable = isOrderExpired order ts.
Proof.
  intros Hmin Hsmall. unfold isFillableByVAMM.
  destruct (isAuctionComplete order slot).
  - destruct (calculateBaseAssetAmountForAmmToFulfill order market oraclePriceData slot)
      as [quantity | message] eqn:Equantity; cbn [bind ret Monad_Result];
      [| discriminate].
    apply calculateBaseAssetAmountForAmmToFulfill_inv in Equantity.
    intros Hreturn. injection Hreturn as <-.
    destruct Equantity as [[_ ->] | [_ [candidate [_ ->]]]];
      bn_cases; (lia || reflexivity).
  - intros Hreturn. injection Hreturn as <-. reflexivity.
Qed.

(** X19: a trigger order whose trigger has not fired is never expired, and
    for it [isFillableByVAMM] never throws: it returns true exactly when the
    auction is complete and the market's minimum order size is not positive,
    so on a market with a positive minimum order size the order is not
    fillable. *)
Theorem untriggered_order_not_fillable (order : Order.t)
  (market : PerpMarketAccount.t Curve) (oraclePriceData : OraclePriceData.t)
  (slot ts : Z) :
  Order.orderType order = triggerMarket \/ Order.orderType order = triggerLimit ->
  Order.triggerCondition order <> triggeredAbove ->
  Order.triggerCondition order <> triggeredBelow ->
  isOrderExpired order ts = false
  /\ isFillableByVAMM order market oraclePriceData slot ts
     = Return (isAuctionComplete order slot
               && (AMM.minOrderSize (PerpMarketAccount.amm market) <=? 0))
  /\ (0 < AMM.minOrderSize (PerpMarketAccount.amm market) ->
      isFillableByVAMM order market oraclePriceData slot ts = Return false).
Proof.
  intros Htype Habove Hbelow.
  apply mustBeTriggered_iff in Htype.
  assert (Hexpired : isOrderExpired order ts = false).
  { unfold isOrderExpired. rewrite Htype. reflexivity. }
  assert (Hgate : isTriggered order = false).
  { destruct (isTriggered order) eqn:Etriggered; [| reflexivity].
    apply isTriggered_iff in Etriggered. destruct Etriggered; contradiction. }
  assert (Hfillable :
            isFillableByVAMM order market oraclePriceData slot ts
            = Return (isAuctionComplete order slot
                      && (AMM.minOrderSize (PerpMarketAccount.amm market) <=? 0))).
  { unfold isFillableByVAMM, calculateBaseAssetAmountForAmmToFulfill.
    rewrite Htype, Hgate, Hexpired.
    destruct (isAuctionComplete order slot); cbn [bind ret Monad_Result negb andb];
      [| reflexivity].
    unfold ZERO. rewrite Z.geb_leb, orb_false_r. reflexivity. }
  split; [exact Hexpired | split; [exact Hfillable |]].
  intros Hmin. rewrite Hfillable.
  destruct (Z.leb_spec (AMM.minOrderSize (PerpMarketAccount.amm market)) 0);
    [lia | rewrite andb_false_r; reflexivity].
Qed.

(** X20: an order without trigger, oracle offset, static price and auction
    price is filled at the market: the quantity is the unfilled remainder
    capped by what the curve can fill, and the order step size, zero or not,
    plays no part. *)
Theorem market_fill_is_capped_remainder (order : Order.t)
  (market : PerpMarketAccount.t Curve) (oraclePriceData : OraclePriceData.t)
  (slot : Z) :
  mustBeTriggered order = false ->
  hasAuctionPrice order slot = false ->
  Order.oraclePriceOffset order = 0 ->
  Order.price order = 0 ->
  calculateBaseAssetAmountForAmmToFulfill order market oraclePriceData slot
  = Return
      (Z.min
         (calculateMaxBaseAssetAmountFillable
            (calculateUpdatedAMM (PerpMarketAccount.amm market) oraclePriceData)
            (Order.direction order))
         (Order.baseAssetAmount order - Order.baseAssetAmountFilled order)).
Proof.
  intros Htype Hauction Hoffset Hprice.
  unfold calculateBaseAssetAmountForAmmToFulfill, getLimitPrice.
  rewrite Htype, Hauction, Hoffset, Hprice.
  cbn [andb negb bind ret Monad_Result]. unfold ZERO.
  cbn [Z.eqb negb]. rewrite BN_min_spec. reflexivity.
Qed.

End Orders.

(** ** The properties on the sample inputs *)

(** A short order with [25] left against a long position of [10] flips it. *)
Lemma isOrderRiskIncreasing_flip_rule_witness :
  isOrderRiskIncreasing Sample.longTen Sample.flipOrder = true
  /\ isOrderRiskIncreasingInSameDirection Sample.longTen Sample.flipOrder = false.
Proof.
  destruct (isOrderRiskIncreasing_flip_rule Sample.longTen Sample.flipOrder)
    as [_ [Hsame Hten]].
  - discriminate.
  - left. split; reflexivity.
  - split; [apply Hten; reflexivity | exact Hsame].
Defined.

Lemma uninitialized_order_is_noop_witness :
  isOrderRiskIncreasing Sample.flat Sample.emptyOrder = false
  /\ isOrderRiskIncreasingInSameDirection Sample.flat Sample.emptyOrder = false
  /\ isOrderReduceOnly Sample.flat Sample.emptyOrder = false
  /\ isOrderExpired Sample.emptyOrder 2 = false.
Proof.
  apply (uninitialized_order_is_noop Sample.flat Sample.emptyOrder 2).
  reflexivity.
Defined.

(** On a flat position an open order is risk increasing and not reduce-only. *)
Lemma isOrderReduceOnly_zero_position_asymmetry_witness :
  isOrderReduceOnly Sample.flat Sample.flipOrder = false
  /\ isOrderRiskIncreasing Sample.flat Sample.flipOrder = true.
Proof.
  destruct (isOrderReduceOnly_zero_position_asymmetry Sample.flat Sample.flipOrder)
    as [_ [_ Hflat]].
  - discriminate.
  - apply Hflat. reflexivity.
Defined.

Lemma standardizeBaseAssetAmount_rounds_down_witness :
  standardizeBaseAssetAmount 1250 100 = Return 1200
  /\ (100 | 1200) /\ 1200 <= 1250.
Proof.
  destruct (standardizeBaseAssetAmount_rounds_down 1250 100)
    as [Hreturn [Hmultiple [Hbelow _]]]; [lia | lia |].
  split; [exact Hreturn | split; [exact Hmultiple | exact Hbelow]].
Defined.

Lemma untriggered_order_fills_zero_witness :
  calculateBaseAssetAmountForAmmToFulfill
    Sample.isAuctionComplete Sample.getAuctionPrice Sample.calculateUpdatedAMM
    (Sample.calculateMaxBaseAssetAmountToTrade long)
    Sample.calculateMaxBaseAssetAmountFillable
    Sample.stopOrder (Sample.market 100) Sample.oraclePriceData 7
  = Return 0.
Proof.
  apply untriggered_order_fills_zero.
  - right. reflexivity.
  - discriminate.
  - discriminate.
Defined.

(** The curve reports a short trade of [1250] for a long order. *)
Lemma direction_mismatch_fills_zero_witness :
  calculateBaseAssetAmountToFillUpToLimitPrice
    (Sample.calculateMaxBaseAssetAmountToTrade short)
    Sample.limitOrder (Sample.amm 100) 100 Sample.oraclePriceData
  = Return 0.
Proof.
  destruct (direction_mismatch_fills_zero
              (Sample.calculateMaxBaseAssetAmountToTrade short)
              Sample.limitOrder (Sample.amm 100) 100 Sample.oraclePriceData
              1250 short) as [_ Hreturns].
  - reflexivity.
  - discriminate.
  - apply Hreturns. discriminate.
Defined.

(** The limit order of [1000]: the curve offers [1250], the step rounds it
    to [1200], the remainder caps it at [1000], the curve can fill [800]. *)
Lemma fill_quantity_within_unfilled_remainder_witness :
  calculateBaseAssetAmountForAmmToFulfill
    Sample.isAuctionComplete Sample.getAuctionPrice Sample.calculateUpdatedAMM
    (Sample.calculateMaxBaseAssetAmountToTrade long)
    Sample.calculateMaxBaseAssetAmountFillable
    Sample.limitOrder (Sample.market 100) Sample.oraclePriceData 7
  = Return 800
  /\ 800 <= Order.baseAssetAmount Sample.limitOrder
            - Order.baseAssetAmountFilled Sample.limitOrder.
Proof.
  split; [reflexivity |].
  destruct (fill_quantity_within_unfilled_remainder
              Sample.isAuctionComplete Sample.getAuctionPrice
              Sample.calculateUpdatedAMM
              (Sample.calculateMaxBaseAssetAmountToTrade long)
              Sample.calculateMaxBaseAssetAmountFillable
              Sample.limitOrder (Sample.market 100) Sample.oraclePriceData 7)
    as [Hbound _].
  - discriminate.
  - apply (Hbound 800). reflexivity.
Defined.

(** The end-to-end scenario: the market order of [1000] gets [800], at least
    the minimum order size of [100], and is fillable by the AMM. *)
Lemma isFillableByVAMM_iff_witness :
  isFillableByVAMM
    Sample.isAuctionComplete Sample.getAuctionPrice Sample.calculateUpdatedAMM
    (Sample.calculateMaxBaseAssetAmountToTrade long)
    Sample.calculateMaxBaseAssetAmountFillable
    Sample.marketOrder (Sample.market 50) Sample.oraclePriceData 7 2
  = Return true.
Proof.
  destruct (isFillableByVAMM_iff
              Sample.isAuctionComplete Sample.getAuctionPrice
              Sample.calculateUpdatedAMM
              (Sample.calculateMaxBaseAssetAmountToTrade long)
              Sample.calculateMaxBaseAssetAmountFillable
              Sample.marketOrder (Sample.market 50) Sample.oraclePriceData 7 2)
    as [Hiff Hreturns].
  destruct Hreturns as [fillable Hreturn].
  - reflexivity.
  - left. discriminate.
  - rewrite Hreturn. f_equal. apply (Hiff fillable Hreturn).
    left. split; [reflexivity |].
    exists 800. split; [reflexivity | discriminate].
Defined.

(** ** The further properties on the sample inputs *)

Lemma isOrderReduceOnly_negates_same_direction_witness :
  isOrderReduceOnly Sample.longTen Sample.flipOrder = true
  /\ isOrderRiskIncreasingInSameDirection Sample.longTen Sample.flipOrder = false.
Proof.
  split; [| reflexivity].
  rewrite (isOrderReduceOnly_negates_same_direction Sample.longTen Sample.flipOrder).
  - reflexivity.
  - discriminate.
Defined.

(** Short [25] against long [10], and long [25] against short [10]. *)
Lemma classifiers_mirror_long_short_witness :
  isOrderRiskIncreasing Scenario.shortTen Scenario.mirrorOrder
  = isOrderRiskIncreasing Sample.longTen Sample.flipOrder
  /\ isOrderRiskIncreasingInSameDirection Scenario.shortTen Scenario.mirrorOrder
     = isOrderRiskIncreasingInSameDirection Sample.longTen Sample.flipOrder
  /\ isOrderReduceOnly Scenario.shortTen Scenario.mirrorOrder
     = isOrderReduceOnly Sample.longTen Sample.flipOrder.
Proof.
  apply (classifiers_mirror_long_short
           Sample.longTen Scenario.shortTen Sample.flipOrder Scenario.mirrorOrder).
  - reflexivity.
  - discriminate.
  - reflexivity.
  - reflexivity.
Defined.

Lemma isOrderRiskIncreasing_monotone_in_remainder_witness :
  isOrderRiskIncreasing Sample.longTen Scenario.largerFlipOrder = true.
Proof.
  apply (isOrderRiskIncreasing_monotone_in_remainder
           Sample.longTen Sample.flipOrder Scenario.largerFlipOrder).
  - reflexivity.
  - reflexivity.
  - reflexivity.
  - discriminate.
  - reflexivity.
Defined.

Lemma standardizeBaseAssetAmount_idempotent_witness :
  standardizeBaseAssetAmount 1200 100 = Return 1200.
Proof.
  apply (standardizeBaseAssetAmount_idempotent 1250 100 1200).
  reflexivity.
Defined.

(** A negative quantity: [-1250] with step [100] is rounded up to [-1200]. *)
Lemma standardizeBaseAssetAmount_truncates_toward_zero_witness :
  exists r : Z,
    standardizeBaseAssetAmount (-1250) 100 = Return r
    /\ (100 | r)
    /\ Z.abs r <= Z.abs (-1250)
    /\ Z.abs (-1250 - r) < Z.abs 100
    /\ (0 <= -1250 -> 0 <= r <= -1250)
    /\ (-1250 <= 0 -> -1250 <= r <= 0).
Proof.
  apply (standardizeBaseAssetAmount_truncates_toward_zero (-1250) 100).
  discriminate.
Defined.

Lemma standardizeBaseAssetAmount_fixed_points_witness :
  standardizeBaseAssetAmount 1200 100 = Return 1200 <-> (100 | 1200).
Proof.
  apply (standardizeBaseAssetAmount_fixed_points 1200 100).
  discriminate.
Defined.

Lemma isOrderExpired_monotone_witness :
  isOrderExpired Sample.limitOrder 5 = true
  /\ Order.status Sample.limitOrder = open
  /\ Order.maxTs Sample.limitOrder <> 0
  /\ Order.maxTs Sample.limitOrder < 2.
Proof.
  apply (isOrderExpired_monotone Sample.limitOrder 2 5).
  - reflexivity.
  - reflexivity.
  - reflexivity.
  - discriminate.
Defined.

(** The expired limit order on a market with an order step size of zero. *)
Lemma zero_step_limit_fill_throws_witness :
  isOrderExpired Sample.limitOrder 2 = true
  /\ isFillableByVAMM
       Sample.isAuctionComplete Sample.getAuctionPrice Sample.calculateUpdatedAMM
       (Sample.calculateMaxBaseAssetAmountToTrade long)
       Sample.calculateMaxBaseAssetAmountFillable
       Sample.limitOrder (Sample.market 0) Sample.oraclePriceData 7 2
     = Throw "Assertion failed".
Proof.
  split; [reflexivity |].
  destruct (zero_step_limit_fill_throws
              Sample.isAuctionComplete Sample.getAuctionPrice
              Sample.calculateUpdatedAMM
              (Sample.calculateMaxBaseAssetAmountToTrade long)
              Sample.calculateMaxBaseAssetAmountFillable
              Sample.limitOrder (Sample.market 0) Sample.oraclePriceData 7 2 100)
    as [_ Hfillable].
  - reflexivity.
  - reflexivity.
  - reflexivity.
  - apply Hfillable. reflexivity.
Defined.

Lemma fill_quantity_nonnegative_witness : 0 <= 800.
Proof.
  apply (fill_quantity_nonnegative
           Sample.isAuctionComplete Sample.getAuctionPrice
           Sample.calculateUpdatedAMM
           (Sample.calculateMaxBaseAssetAmountToTrade long)
           Sample.calculateMaxBaseAssetAmountFillable
           Sample.limitOrder (Sample.market 100) Sample.oraclePriceData 7 800).
  - intros. discriminate.
  - intros. discriminate.
  - discriminate.
  - reflexivity.
Defined.

Lemma fully_filled_order_fills_zero_witness :
  calculateBaseAssetAmountForAmmToFulfill
    Sample.isAuctionComplete Sample.getAuctionPrice Sample.calculateUpdatedAMM
    (Sample.calculateMaxBaseAssetAmountToTrade long)
    Sample.calculateMaxBaseAssetAmountFillable
    Scenario.filledOrder (Sample.market 100) Sample.oraclePriceData 7
  = Return 0.
Proof.
  destruct (calculateBaseAssetAmountForAmmToFulfill
              Sample.isAuctionComplete Sample.getAuctionPrice
              Sample.calculateUpdatedAMM
              (Sample.calculateMaxBaseAssetAmountToTrade long)
              Sample.calculateMaxBaseAssetAmountFillable
              Scenario.filledOrder (Sample.market 100) Sample.oraclePriceData 7)
    as [quantity | message] eqn:Equantity; [| discriminate Equantity].
  f_equal.
  apply (fully_filled_order_fills_zero
           Sample.isAuctionComplete Sample.getAuctionPrice
           Sample.calculateUpdatedAMM
           (Sample.calculateMaxBaseAssetAmountToTrade long)
           Sample.calculateMaxBaseAssetAmountFillable
           Scenario.filledOrder (Sample.market 100) Sample.oraclePriceData 7 quantity).
  - intros. discriminate.
  - intros. discriminate.
  - reflexivity.
  - exact Equantity.
Defined.

(** Of the order of [5000] the curve takes [1200], twelve steps of [100]. *)
Lemma limit_fill_is_step_multiple_or_remainder_witness :
  (100 | 1200) \/ 1200 = 5000 - 0.
Proof.
  apply (limit_fill_is_step_multiple_or_remainder
           (Sample.calculateMaxBaseAssetAmountToTrade long)
           Scenario.bigOrder (Sample.amm 100) 100 Sample.oraclePriceData 1200).
  reflexivity.
Defined.

Lemma remainder_below_min_size_fillable_only_when_expired_witness :
  false = isOrderExpired Scenario.smallOrder 2.
Proof.
  apply (remainder_below_min_size_fillable_only_when_expired
           Sample.isAuctionComplete Sample.getAuctionPrice
           Sample.calculateUpdatedAMM
           (Sample.calculateMaxBaseAssetAmountToTrade long)
           Sample.calculateMaxBaseAssetAmountFillable
           Scenario.smallOrder (Sample.market 100) Sample.oraclePriceData 7 2 false).
  - discriminate.
  - reflexivity.
  - reflexivity.
Defined.

(** Expired, the limit order is fillable on the coarse market too. *)
Lemma curve_below_min_size_fillable_only_when_expired_witness :
  true = isOrderExpired Sample.limitOrder 2.
Proof.
  apply (curve_below_min_size_fillable_only_when_expired
           Sample.isAuctionComplete Sample.getAuctionPrice
           Sample.calculateUpdatedAMM
           (Sample.calculateMaxBaseAssetAmountToTrade long)
           Sample.calculateMaxBaseAssetAmountFillable
           Sample.limitOrder Scenario.coarseMarket Sample.oraclePriceData 7 2 true).
  - reflexivity.
  - reflexivity.
  - reflexivity.
Defined.

Lemma untriggered_order_not_fillable_witness :
  isFillableByVAMM
    Sample.isAuctionComplete Sample.getAuctionPrice Sample.calculateUpdatedAMM
    (Sample.calculateMaxBaseAssetAmountToTrade long)
    Sample.calculateMaxBaseAssetAmountFillable
    Sample.stopOrder (Sample.market 100) Sample.oraclePriceData 7 2
  = Return false.
Proof.
  destruct (untriggered_order_not_fillable
              Sample.isAuctionComplete Sample.getAuctionPrice
              Sample.calculateUpdatedAMM
              (Sample.calculateMaxBaseAssetAmountToTrade long)
              Sample.calculateMaxBaseAssetAmountFillable
              Sample.stopOrder (Sample.market 100) Sample.oraclePriceData 7 2)
    as [_ [_ Hpositive]].
  - right. reflexivity.
  - discriminate.
  - discriminate.
  - apply Hpositive. reflexivity.
Defined.

(** The market order on a market with an order step size of zero. *)
Lemma market_fill_is_capped_remainder_witness :
  calculateBaseAssetAmountForAmmToFulfill
    Sample.isAuctionComplete Sample.getAuctionPrice Sample.calculateUpdatedAMM
    (Sample.calculateMaxBaseAssetAmountToTrade long)
    Sample.calculateMaxBaseAssetAmountFillable
    Sample.marketOrder (Sample.market 0) Sample.oraclePriceData 7
  = Return 800.
Proof.
  apply (market_fill_is_capped_remainder
           Sample.isAuctionComplete Sample.getAuctionPrice
           Sample.calculateUpdatedAMM
           (Sample.calculateMaxBaseAssetAmountToTrade long)
           Sample.calculateMaxBaseAssetAmountFillable
           Sample.marketOrder (Sample.market 0) Sample.oraclePriceData 7).
  - reflexivity.
  - reflexivity.
  - reflexivity.
  - reflexivity.
Defined.
